(** * Event management backend: the events router and the socket handlers

    A shallow embedding of [routes/events] (the Express router with the
    seven event routes) and of the Socket.IO connection handlers of
    [index.js], followed by the properties of the written specification
    that concern them.

    Modelling conventions.
    - The MongoDB collection of events is a finite map from [_id] to the
      remaining paths of the document; a loaded document is the pair of
      its key and its paths.
    - An [ObjectId] is represented by the string [toString()] gives for it.
      The string-to-ObjectId cast, the schema validation run by [save()]
      and the lookup of referenced users belong to Mongoose and to files
      that are not part of the router; they are the fields of a [Mongoose]
      record over which the whole development is parametric.
    - [req.userId] is what the [auth] middleware resolved: the identifier
      of a stored user, hence already an [ObjectId].  References to users
      always resolve ([populate] never drops an attendee).
    - [io.sockets.adapter.rooms] is a finite map from room name to the set
      of socket ids in the room; everything emitted through [io] is
      appended to an outbox.
    - The database is available: the only exceptions are the ones Mongoose
      raises by itself (cast, validation, duplicate key).
    - Every handler is a function from the world before the request to the
      world after it and the response that was sent. *)

From stdpp Require Import gmap strings list fin_maps sorting.
From Stdlib Require Import ZArith Ascii.

Open Scope string_scope.

(** ** Data *)

Abbreviation ObjectId := string (only parsing).

(** The paths of an event document other than [_id].  A path that is absent
    from the document ([undefined] in JavaScript) is [None]. *)
Record Event := mkEvent {
  title : option string;
  description : option string;
  date : option Z;
  location : option string;
  category : option string;
  capacity : option Z;
  imageUrl : option string;
  creator : ObjectId;
  attendees : list ObjectId
}.

(** The destructured part of [req.body] in [router.post('/')]. *)
Record Body := mkBody {
  b_title : option string;
  b_description : option string;
  b_date : option Z;
  b_location : option string;
  b_category : option string;
  b_capacity : option Z;
  b_imageUrl : option string
}.

(** [req.body] of [router.put('/:id')]: any subset of the schema paths
    other than [_id].  References arrive as strings. *)
Record Patch := mkPatch {
  p_title : option string;
  p_description : option string;
  p_date : option Z;
  p_location : option string;
  p_category : option string;
  p_capacity : option Z;
  p_imageUrl : option string;
  p_creator : option string;
  p_attendees : option (list string)
}.

(** A user as [populate(_, 'username email')] returns it. *)
Record User := mkUser {
  u_id : ObjectId;
  username : string;
  email : option string
}.

(** A loaded document whose [creator] and [attendees] are populated. *)
Record Populated := mkPopulated {
  _id : ObjectId;
  paths : Event;
  creatorDoc : User;
  attendeeDocs : list User
}.

(** What is sent as JSON, in a response or through a socket. *)
Inductive Data :=
| JMessage (message : string)
| JError (message : string) (error : string)
| JEvent (id : ObjectId) (e : Event)
| JPopulated (e : Populated)
| JViewed (e : Populated) (currentViewers : nat)
| JEvents (l : list (ObjectId * Event * User))
| JId (id : string)
| JViewerUpdate (eventId : string) (viewers : nat) (timestamp : Z).

Record Response := mkResponse {
  status : nat;
  body : Data
}.

(** [io.emit(name, payload)] has no room, [io.to(room).emit(name, payload)]
    has one. *)
Record Emission := mkEmission {
  room : option string;
  name : string;
  payload : Data
}.

Record World := mkWorld {
  events : gmap string Event;
  rooms : gmap string (gset string);
  outbox : list Emission
}.

(** ** Exceptions *)

Record MongooseError := mkError {
  kind : option string;
  errmsg : string
}.

Inductive Try (A : Type) :=
| Return (a : A)
| Throw (e : MongooseError).
Arguments Return {A} a.
Arguments Throw {A} e.

#[global] Instance Try_ret : MRet Try := fun A a => Return a.
#[global] Instance Try_bind : MBind Try := fun A B k m =>
  match m with
  | Return a => k a
  | Throw e => Throw e
  end.

(** ** The Mongoose side *)

Record Mongoose := mkMongoose {
  (** the cast of a request string to an ObjectId; [None] is a CastError *)
  castObjectId : string -> option ObjectId;
  castMessage : string -> string;
  (** the validation of the Event schema; [Some m] is a ValidationError *)
  validate : Event -> option string;
  duplicateKeyMessage : ObjectId -> string;
  (** the users collection, read by [populate] *)
  profile : ObjectId -> string * option string
}.

(** Modelled from the spec: the schema of [models/Event] is not part of the
    router.  The specification names the required paths: title, date,
    location, category and capacity; no other constraint is stated. *)
Definition requiredPaths (e : Event) : option string :=
  if bool_decide (is_Some (title e)) && bool_decide (is_Some (date e))
     && bool_decide (is_Some (location e)) && bool_decide (is_Some (category e))
     && bool_decide (is_Some (capacity e))
  then None
  else Some "Event validation failed".

Definition isHexDigit (c : ascii) : bool :=
  let n := nat_of_ascii c in
  (48 <=? n)%nat && (n <=? 57)%nat || (97 <=? n)%nat && (n <=? 102)%nat
  || (65 <=? n)%nat && (n <=? 70)%nat.

Definition lowerHex (c : ascii) : ascii :=
  let n := nat_of_ascii c in
  if (65 <=? n)%nat && (n <=? 70)%nat then ascii_of_nat (n + 32) else c.

Fixpoint mapString (f : ascii -> ascii) (s : string) : string :=
  match s with
  | EmptyString => EmptyString
  | String c s' => String (f c) (mapString f s')
  end.

Fixpoint allString (f : ascii -> bool) (s : string) : bool :=
  match s with
  | EmptyString => true
  | String c s' => f c && allString f s'
  end.

(** The cast of the MongoDB driver on strings: twenty-four hexadecimal
    digits, rendered in lower case. *)
Definition hex24 (s : string) : option ObjectId :=
  if (String.length s =? 24)%nat && allString isHexDigit s
  then Some (mapString lowerHex s)
  else None.

(** A concrete instance, used to run the handlers on examples. *)
Definition sampleMongoose : Mongoose := {|
  castObjectId := hex24;
  castMessage := fun s => "Cast to ObjectId failed for value " ++ s;
  validate := requiredPaths;
  duplicateKeyMessage := fun id => "E11000 duplicate key error: " ++ id;
  profile := fun id => ("user-" ++ id, Some (id ++ "@example.org"))
|}.

(** ** The model and the handlers *)

Section Handlers.

Variable M : Mongoose.

(** *** Queries and writes of the Event model *)

Definition CastError (value : string) : MongooseError :=
  {| kind := Some "ObjectId"; errmsg := castMessage M value |}.

Definition ValidationError (m : string) : MongooseError :=
  {| kind := None; errmsg := m |}.

Definition DuplicateKey (id : ObjectId) : MongooseError :=
  {| kind := None; errmsg := duplicateKeyMessage M id |}.

Definition cast (value : string) : Try ObjectId :=
  match castObjectId M value with
  | Some oid => Return oid
  | None => Throw (CastError value)
  end.

(** [Event.findById(id)] *)
Definition findById (docs : gmap string Event) (id : string)
  : Try (option (ObjectId * Event)) :=
  oid ← cast id;
  mret (match docs !! oid with
        | Some e => Some (oid, e)
        | None => None
        end).

(** [Event.findOne({ _id: id, creator: userId })] *)
Definition findOne (docs : gmap string Event) (id : string) (userId : ObjectId)
  : Try (option (ObjectId * Event)) :=
  oid ← cast id;
  mret (match docs !! oid with
        | Some e => if decide (creator e = userId) then Some (oid, e) else None
        | None => None
        end).

(** [Event.findOneAndDelete({ _id: id, creator: userId })]: the document
    that matched, and the collection without it. *)
Definition findOneAndDelete (docs : gmap string Event) (id : string)
    (userId : ObjectId)
  : Try (option (ObjectId * Event) * gmap string Event) :=
  found ← findOne docs id userId;
  mret (match found with
        | Some (oid, e) => (Some (oid, e), delete oid docs)
        | None => (None, docs)
        end).

(** [event.save()] of a document made by [new Event(..)]: validation, then
    an insert, which the unique index on [_id] may refuse. *)
Definition saveNew (docs : gmap string Event) (oid : ObjectId) (e : Event)
  : Try (gmap string Event) :=
  match validate M e with
  | Some m => Throw (ValidationError m)
  | None =>
      match docs !! oid with
      | Some _ => Throw (DuplicateKey oid)
      | None => Return (<[oid := e]> docs)
      end
  end.

(** [event.save()] of a document that was loaded: validation, then an
    update of the stored document. *)
Definition save (docs : gmap string Event) (oid : ObjectId) (e : Event)
  : Try (gmap string Event) :=
  match validate M e with
  | Some m => Throw (ValidationError m)
  | None => Return (<[oid := e]> docs)
  end.

Definition populateUser (id : ObjectId) : User :=
  {| u_id := id; username := fst (profile M id); email := snd (profile M id) |}.

(** [.populate('creator', 'username email').populate('attendees', 'username email')] *)
Definition populate (doc : ObjectId * Event) : Populated :=
  {| _id := fst doc;
     paths := snd doc;
     creatorDoc := populateUser (creator (snd doc));
     attendeeDocs := populateUser <$> attendees (snd doc) |}.

(** [.populate('creator', 'username')] *)
Definition populateCreatorName (doc : ObjectId * Event) : ObjectId * Event * User :=
  (doc, {| u_id := creator (snd doc);
           username := fst (profile M (creator (snd doc)));
           email := None |}).

(** What Mongoose stores for a populated array: the [_id] of each member. *)
Definition depopulate (l : list User) : list ObjectId := u_id <$> l.

Definition setAttendees (e : Event) (l : list ObjectId) : Event :=
  {| title := title e; description := description e; date := date e;
     location := location e; category := category e; capacity := capacity e;
     imageUrl := imageUrl e; creator := creator e; attendees := l |}.

(** [.sort({ date: 1 })]: ascending, a missing date first. *)
Definition dateLe (a b : ObjectId * Event) : Prop :=
  match date (snd a), date (snd b) with
  | None, _ => True
  | Some _, None => False
  | Some x, Some y => (x <= y)%Z
  end.

#[global] Instance dateLe_dec a b : Decision (dateLe a b).
Proof.
  unfold dateLe. destruct (date (snd a)), (date (snd b)); apply _.
Defined.

(** [Event.find().populate('creator', 'username').sort({ date: 1 })] *)
Definition find (docs : gmap string Event) : list (ObjectId * Event * User) :=
  populateCreatorName <$> merge_sort dateLe (map_to_list docs).

(** *** Socket.IO *)

(** [io.sockets.adapter.rooms.get(r)?.size || 0] *)
Definition roomSize (rs : gmap string (gset string)) (r : string) : nat :=
  match rs !! r with
  | Some sockets => size sockets
  | None => 0
  end.

(** The sockets that [io.to(r)] addresses. *)
Definition subscribers (rs : gmap string (gset string)) (r : string) : gset string :=
  default ∅ (rs !! r).

(** [socket.join(r)] *)
Definition socketJoin (rs : gmap string (gset string)) (socketId r : string)
  : gmap string (gset string) :=
  <[r := {[socketId]} ∪ subscribers rs r]> rs.

(** [socket.leave(r)]: the adapter deletes a room that became empty. *)
Definition socketLeave (rs : gmap string (gset string)) (socketId r : string)
  : gmap string (gset string) :=
  match rs !! r with
  | None => rs
  | Some sockets =>
      let rest := sockets ∖ {[socketId]} in
      if decide (rest = ∅) then delete r rs else <[r := rest]> rs
  end.

Definition emit (w : World) (r : option string) (n : string) (d : Data) : World :=
  {| events := events w; rooms := rooms w;
     outbox := (outbox w ++ [ {| room := r; name := n; payload := d |} ])%list |}.

Definition setEvents (w : World) (docs : gmap string Event) : World :=
  {| events := docs; rooms := rooms w; outbox := outbox w |}.

Definition setRooms (w : World) (rs : gmap string (gset string)) : World :=
  {| events := events w; rooms := rs; outbox := outbox w |}.

(** *** Responses *)

(** [res.status(c).json(d)] *)
Definition json (c : nat) (d : Data) : Response := {| status := c; body := d |}.

(** [res.status(500).json({ message: 'Server error', error: error.message })] *)
Definition serverError (err : MongooseError) : Response :=
  json 500 (JError "Server error" (errmsg err)).

(** The [try { .. } catch (error) { .. }] of every route but the first: the
    world is the one before the request, since nothing is written or
    emitted before the last statement that can throw. *)
Definition tryCatch (w : World) (t : Try (World * Response)) : World * Response :=
  match t with
  | Return r => r
  | Throw err => (w, serverError err)
  end.

(** The [catch] of [router.get('/:id')], which tells a cast error apart. *)
Definition tryCatchGet (w : World) (t : Try (World * Response)) : World * Response :=
  match t with
  | Return r => r
  | Throw err =>
      if decide (kind err = Some "ObjectId")
      then (w, json 404 (JMessage "Event not found"))
      else (w, serverError err)
  end.

(** [array.some(f)] *)
Definition some {A} (f : A -> bool) (l : list A) : bool := existsb f l.

(** [n >= c] where [c] may be [undefined]: the comparison is then false. *)
Definition geNumber (n : nat) (c : option Z) : bool :=
  match c with
  | Some c => (c <=? Z.of_nat n)%Z
  | None => false
  end.

(** The JSON of the result of a query that may be [null]. *)
Definition populated (found : option (ObjectId * Event)) : Data :=
  match found with
  | Some doc => JPopulated (populate doc)
  | None => JMessage "null"
  end.

(** [Object.assign(event, req.body)]: every path of the body overwrites the
    path of the document.  The two reference paths are cast; a failed cast
    is kept on the document and raised by the [save()] that follows, and
    nothing happens in between. *)
Definition Object_assign (e : Event) (p : Patch) : Try Event :=
  c ← match p_creator p with
      | Some s => cast s
      | None => mret (creator e)
      end;
  a ← match p_attendees p with
      | Some l => mapM cast l
      | None => mret (attendees e)
      end;
  mret {| title := if p_title p is Some x then Some x else title e;
          description := if p_description p is Some x then Some x else description e;
          date := if p_date p is Some x then Some x else date e;
          location := if p_location p is Some x then Some x else location e;
          category := if p_category p is Some x then Some x else category e;
          capacity := if p_capacity p is Some x then Some x else capacity e;
          imageUrl := if p_imageUrl p is Some x then Some x else imageUrl e;
          creator := c;
          attendees := a |}.

(** *** The routes *)

(** [router.get('/:id')] *)
Definition get_id (w : World) (id : string) : World * Response :=
  tryCatchGet w (
    event ← findById (events w) id;
    match event with
    | None => mret (w, json 404 (JMessage "Event not found"))
    | Some doc =>
        let event := populate doc in
        let viewers := roomSize (rooms w) id in
        let eventWithViewers := JViewed event viewers in
        mret (emit w (Some id) "eventUpdated" eventWithViewers,
              json 200 eventWithViewers)
    end).

(** [router.get('/')] *)
Definition get_all (w : World) : World * Response :=
  tryCatch w (mret (w, json 200 (JEvents (find (events w))))).

(** [new Event({ title, .., creator: req.userId, attendees: [req.userId] })] *)
Definition newEvent (b : Body) (userId : ObjectId) : Event :=
  {| title := b_title b; description := b_description b; date := b_date b;
     location := b_location b; category := b_category b;
     capacity := b_capacity b; imageUrl := b_imageUrl b;
     creator := userId;
     attendees := [userId] |}.

(** [router.post('/')]; [oid] is the [_id] that [new Event(..)] draws. *)
Definition post_event (w : World) (userId : ObjectId) (oid : ObjectId) (b : Body)
  : World * Response :=
  tryCatch w (
    let event := newEvent b userId in
    docs ← saveNew (events w) oid event;
    let populatedEvent :=
      populated (if docs !! oid is Some e then Some (oid, e) else None) in
    mret (emit (setEvents w docs) None "eventUpdated" populatedEvent,
          json 201 populatedEvent)).

(** [router.put('/:id')] *)
Definition put_id (w : World) (userId : ObjectId) (id : string) (p : Patch)
  : World * Response :=
  tryCatch w (
    event ← findOne (events w) id userId;
    match event with
    | None => mret (w, json 404 (JMessage "Event not found or unauthorized"))
    | Some (oid, e) =>
        e' ← Object_assign e p;
        docs ← save (events w) oid e';
        mret (emit (setEvents w docs) (Some id) "eventUpdated" (JEvent oid e'),
              json 200 (JEvent oid e'))
    end).

(** [router.delete('/:id')] *)
Definition delete_id (w : World) (userId : ObjectId) (id : string)
  : World * Response :=
  tryCatch w (
    r ← findOneAndDelete (events w) id userId;
    match fst r with
    | None => mret (w, json 404 (JMessage "Event not found or unauthorized"))
    | Some _ =>
        mret (emit (setEvents w (snd r)) None "eventDeleted" (JId id),
              json 200 (JMessage "Event deleted successfully"))
    end).

(** [router.post('/:id/join')] *)
Definition post_join (w : World) (userId : ObjectId) (id : string)
  : World * Response :=
  tryCatch w (
    found ← findById (events w) id;
    match found with
    | None => mret (w, json 404 (JMessage "Event not found"))
    | Some doc =>
        let event := populate doc in
        if some (fun attendee => bool_decide (u_id attendee = userId))
                (attendeeDocs event)
        then mret (w, json 400 (JMessage "Already joined this event"))
        else if geNumber (length (attendeeDocs event)) (capacity (paths event))
        then mret (w, json 400 (JMessage "Event is full"))
        else
          let pushed := (depopulate (attendeeDocs event) ++ [userId])%list in
          docs ← save (events w) (_id event) (setAttendees (paths event) pushed);
          updatedEvent ← findById docs id;
          mret (emit (setEvents w docs) (Some id) "eventUpdated"
                     (populated updatedEvent),
                json 200 (populated updatedEvent))
    end).

(** [router.post('/:id/leave')] *)
Definition post_leave (w : World) (userId : ObjectId) (id : string)
  : World * Response :=
  tryCatch w (
    found ← findById (events w) id;
    match found with
    | None => mret (w, json 404 (JMessage "Event not found"))
    | Some doc =>
        let event := populate doc in
        if negb (some (fun attendee => bool_decide (u_id attendee = userId))
                      (attendeeDocs event))
        then mret (w, json 400 (JMessage "Not joined this event"))
        else
          let kept := filter (fun attendee => u_id attendee ≠ userId)
                             (attendeeDocs event) in
          docs ← save (events w) (_id event)
                      (setAttendees (paths event) (depopulate kept));
          updatedEvent ← findById docs id;
          mret (emit (setEvents w docs) (Some id) "eventUpdated"
                     (populated updatedEvent),
                json 200 (populated updatedEvent))
    end).

(** *** The socket handlers of [index.js] *)

(** [socket.on('joinEvent', ..)]; [now] is what [new Date()] reads. *)
Definition on_joinEvent (w : World) (socketId eventId : string) (now : Z) : World :=
  let w1 := setRooms w (socketJoin (rooms w) socketId eventId) in
  let viewers := roomSize (rooms w1) eventId in
  emit w1 (Some eventId) "viewerUpdate" (JViewerUpdate eventId viewers now).

(** [socket.on('leaveEvent', ..)] *)
Definition on_leaveEvent (w : World) (socketId eventId : string) (now : Z) : World :=
  let w1 := setRooms w (socketLeave (rooms w) socketId eventId) in
  let viewers := roomSize (rooms w1) eventId in
  emit w1 (Some eventId) "viewerUpdate" (JViewerUpdate eventId viewers now).

(** *** The requests of the HTTP interface *)

Inductive Request :=
| GET_id (id : string)
| GET_all
| POST_event (userId oid : ObjectId) (b : Body)
| PUT_id (userId : ObjectId) (id : string) (p : Patch)
| DELETE_id (userId : ObjectId) (id : string)
| POST_join (userId : ObjectId) (id : string)
| POST_leave (userId : ObjectId) (id : string).

Definition handle (w : World) (r : Request) : World * Response :=
  match r with
  | GET_id id => get_id w id
  | GET_all => get_all w
  | POST_event userId oid b => post_event w userId oid b
  | PUT_id userId id p => put_id w userId id p
  | DELETE_id userId id => delete_id w userId id
  | POST_join userId id => post_join w userId id
  | POST_leave userId id => post_leave w userId id
  end.

(** Whether a request is an update whose body carries a [creator]. *)
Definition assignsCreator (r : Request) : bool :=
  match r with
  | PUT_id _ _ p => bool_decide (is_Some (p_creator p))
  | _ => false
  end.

(** *** The outcomes of the specification

    The error taxonomy of the specification, read off the status and the
    message of a response. *)
Inductive Outcome :=
| Success
| NotFound
| AlreadyJoined
| Full
| NotJoined
| ValidationFailure
| ServerError.

Definition outcome (r : Response) : Outcome :=
  match status r, body r with
  | 200, _ | 201, _ => Success
  | 404, _ => NotFound
  | 400, JMessage "Already joined this event" => AlreadyJoined
  | 400, JMessage "Event is full" => Full
  | 400, JMessage "Not joined this event" => NotJoined
  | 400, _ | 422, _ => ValidationFailure
  | _, _ => ServerError
  end.

End Handlers.

(** ** Sample data for the examples *)

Definition alice : ObjectId := "aaaaaaaaaaaaaaaaaaaaaaaa".
Definition bob : ObjectId := "bbbbbbbbbbbbbbbbbbbbbbbb".
Definition carol : ObjectId := "cccccccccccccccccccccccc".
Definition party : ObjectId := "0123456789abcdef01234567".

Definition emptyWorld : World := {| events := ∅; rooms := ∅; outbox := [] |}.

Definition partyBody (c : Z) : Body :=
  {| b_title := Some "Party"; b_description := None; b_date := Some 1700000000%Z;
     b_location := Some "Hall"; b_category := Some "Social";
     b_capacity := Some c; b_imageUrl := None |}.


(** The world after alice created the party with capacity [c]. *)
Definition partyWorld (c : Z) : World :=
  fst (post_event sampleMongoose emptyWorld alice party (partyBody c)).

Definition partyEvent (c : Z) : Event := newEvent (partyBody c) alice.

Definition handOver : Patch :=
  {| p_title := None; p_description := None; p_date := None; p_location := None;
     p_category := None; p_capacity := None; p_imageUrl := None;
     p_creator := Some bob; p_attendees := None |}.

(** ** Vocabulary of the further properties *)

(** A response with status 200 or 201. *)
Definition succeeded (r : Response) : bool :=
  (status r =? 200)%nat || (status r =? 201)%nat.

(** The room (or none for everybody) and the name under which a route emits
    when it answers with success; [GET /] emits nothing. *)
Definition announcement (r : Request) : option (option string * string) :=
  match r with
  | GET_id id => Some (Some id, "eventUpdated")
  | GET_all => None
  | POST_event _ _ _ => Some (None, "eventUpdated")
  | PUT_id _ id _ => Some (Some id, "eventUpdated")
  | DELETE_id _ id => Some (None, "eventDeleted")
  | POST_join _ id => Some (Some id, "eventUpdated")
  | POST_leave _ id => Some (Some id, "eventUpdated")
  end.



(** Whether a request is an update whose body carries [attendees]. *)
Definition assignsAttendees (r : Request) : bool :=
  match r with
  | PUT_id _ _ p => bool_decide (is_Some (p_attendees p))
  | _ => false
  end.



(** The body [{ capacity: c }] of an update. *)
Definition capacityPatch (c : Z) : Patch :=
  {| p_title := None; p_description := None; p_date := None; p_location := None;
     p_category := None; p_capacity := Some c; p_imageUrl := None;
     p_creator := None; p_attendees := None |}.

(** The body [{ creator: s }] of an update. *)
Definition creatorPatch (s : string) : Patch :=
  {| p_title := None; p_description := None; p_date := None; p_location := None;
     p_category := None; p_capacity := None; p_imageUrl := None;
     p_creator := Some s; p_attendees := None |}.

Definition setCreator (e : Event) (c : ObjectId) : Event :=
  {| title := title e; description := description e; date := date e;
     location := location e; category := category e; capacity := capacity e;
     imageUrl := imageUrl e; creator := c; attendees := attendees e |}.

Definition setCapacity (e : Event) (c : Z) : Event :=
  {| title := title e; description := description e; date := date e;
     location := location e; category := category e; capacity := Some c;
     imageUrl := imageUrl e; creator := creator e; attendees := attendees e |}.

(** ** Properties *)

Section Properties.

Variable M : Mongoose.

(** *** Populated arrays *)

Lemma depopulate_populate (l : list ObjectId) :
  depopulate (populateUser M <$> l) = l.
Proof.
  unfold depopulate. induction l as [|x l IH]; [done|].
  rewrite !fmap_cons. cbn [u_id populateUser]. by f_equal.
Qed.

Lemma some_populate (userId : ObjectId) (l : list ObjectId) :
  some (fun attendee => bool_decide (u_id attendee = userId)) (populateUser M <$> l)
  = bool_decide (userId ∈ l).
Proof.
  unfold some. induction l as [|x l IH].
  - rewrite (bool_decide_eq_false_2 (userId ∈ [])); [done|]. apply not_elem_of_nil.
  - rewrite fmap_cons. cbn [existsb u_id populateUser]. rewrite IH.
    destruct (decide (x = userId)) as [->|Hne].
    + rewrite (bool_decide_eq_true_2 (userId = userId)) by done.
      rewrite (bool_decide_eq_true_2 (userId ∈ userId :: l)); [done|]. left.
    + rewrite (bool_decide_eq_false_2 (x = userId)) by done. simpl.
      apply bool_decide_ext. rewrite elem_of_cons.
      split; [by right | intros [Heq|?]; [by subst | done]].
Qed.

Lemma filter_populate (userId : ObjectId) (l : list ObjectId) :
  depopulate (filter (fun attendee => u_id attendee ≠ userId) (populateUser M <$> l))
  = filter (fun x => x ≠ userId) l.
Proof.
  unfold depopulate. induction l as [|x l IH]; [done|].
  rewrite fmap_cons, !filter_cons. cbn [u_id populateUser].
  destruct (decide (x ≠ userId)); [rewrite fmap_cons; cbn [u_id populateUser]|];
    by rewrite IH.
Qed.

Lemma setAttendees_id (e : Event) : setAttendees e (attendees e) = e.
Proof. by destruct e. Qed.


(** *** Running a handler *)

Lemma findById_cast (docs : gmap string Event) (id : string) (oid : ObjectId) :
  castObjectId M id = Some oid ->
  findById M docs id
  = Return (if docs !! oid is Some e then Some (oid, e) else None).
Proof. intros H. unfold findById, cast. by rewrite H. Qed.

Lemma findById_malformed (docs : gmap string Event) (id : string) :
  castObjectId M id = None ->
  findById M docs id = Throw (CastError M id).
Proof. intros H. unfold findById, cast. by rewrite H. Qed.

Lemma findOne_cast (docs : gmap string Event) (id : string) (oid userId : ObjectId) :
  castObjectId M id = Some oid ->
  findOne M docs id userId
  = Return (match docs !! oid with
            | Some e => if decide (creator e = userId) then Some (oid, e) else None
            | None => None
            end).
Proof. intros H. unfold findOne, cast. by rewrite H. Qed.

Lemma findOne_malformed (docs : gmap string Event) (id : string) (userId : ObjectId) :
  castObjectId M id = None ->
  findOne M docs id userId = Throw (CastError M id).
Proof. intros H. unfold findOne, cast. by rewrite H. Qed.

(** The three ways out of [post_join] once the event is found. *)
Lemma post_join_member (w : World) (userId : ObjectId) (id : string)
    (oid : ObjectId) (e : Event) :
  castObjectId M id = Some oid ->
  events w !! oid = Some e ->
  userId ∈ attendees e ->
  post_join M w userId id = (w, json 400 (JMessage "Already joined this event")).
Proof.
  intros Hc He Hin. unfold post_join.
  rewrite (findById_cast _ _ _ Hc), He. cbn.
  rewrite some_populate, bool_decide_eq_true_2 by done. done.
Qed.

Lemma post_join_full (w : World) (userId : ObjectId) (id : string)
    (oid : ObjectId) (e : Event) (C : Z) :
  castObjectId M id = Some oid ->
  events w !! oid = Some e ->
  userId ∉ attendees e ->
  capacity e = Some C ->
  (C <= Z.of_nat (length (attendees e)))%Z ->
  post_join M w userId id = (w, json 400 (JMessage "Event is full")).
Proof.
  intros Hc He Hin HC Hle. unfold post_join.
  rewrite (findById_cast _ _ _ Hc), He. cbn.
  rewrite some_populate, bool_decide_eq_false_2 by done.
  rewrite length_fmap, HC. cbn.
  by rewrite (proj2 (Z.leb_le _ _) Hle).
Qed.

Lemma post_join_pushed (w : World) (userId : ObjectId) (id : string)
    (oid : ObjectId) (e : Event) :
  castObjectId M id = Some oid ->
  events w !! oid = Some e ->
  userId ∉ attendees e ->
  geNumber (length (attendees e)) (capacity e) = false ->
  validate M (setAttendees e (attendees e ++ [userId])) = None ->
  let e' := setAttendees e (attendees e ++ [userId]) in
  let w' := setEvents w (<[oid := e']> (events w)) in
  post_join M w userId id
  = (emit w' (Some id) "eventUpdated" (JPopulated (populate M (oid, e'))),
     json 200 (JPopulated (populate M (oid, e')))).
Proof.
  intros Hc He Hin Hcap Hv. unfold post_join.
  rewrite (findById_cast _ _ _ Hc), He. cbn.
  rewrite some_populate, bool_decide_eq_false_2 by done.
  rewrite length_fmap, Hcap, depopulate_populate.
  unfold save. rewrite Hv. cbn.
  rewrite (findById_cast _ _ _ Hc), lookup_insert_eq. done.
Qed.

Lemma get_id_found (w : World) (id : string) (oid : ObjectId) (e : Event) :
  castObjectId M id = Some oid ->
  events w !! oid = Some e ->
  let viewed := JViewed (populate M (oid, e)) (roomSize (rooms w) id) in
  get_id M w id = (emit w (Some id) "eventUpdated" viewed, json 200 viewed).
Proof.
  intros Hc He. unfold get_id. by rewrite (findById_cast _ _ _ Hc), He.
Qed.

Lemma post_event_rejected (w : World) (userId oid : ObjectId) (b : Body) (m : string) :
  validate M (newEvent b userId) = Some m ->
  post_event M w userId oid b = (w, json 500 (JError "Server error" m)).
Proof. intros Hv. unfold post_event, saveNew. by rewrite Hv. Qed.

Lemma post_event_duplicate (w : World) (userId oid : ObjectId) (b : Body) :
  validate M (newEvent b userId) = None ->
  is_Some (events w !! oid) ->
  post_event M w userId oid b
  = (w, json 500 (JError "Server error" (duplicateKeyMessage M oid))).
Proof. intros Hv [e He]. unfold post_event, saveNew. by rewrite Hv, He. Qed.

Lemma post_event_created (w : World) (userId oid : ObjectId) (b : Body) :
  validate M (newEvent b userId) = None ->
  events w !! oid = None ->
  let e := newEvent b userId in
  let w' := setEvents w (<[oid := e]> (events w)) in
  post_event M w userId oid b
  = (emit w' None "eventUpdated" (JPopulated (populate M (oid, e))),
     json 201 (JPopulated (populate M (oid, e)))).
Proof.
  intros Hv He. unfold post_event, saveNew. rewrite Hv, He. cbn.
  by rewrite lookup_insert_eq.
Qed.

(** A response with status 201 is the response of a create that went through. *)
Lemma post_event_201 (w : World) (userId oid : ObjectId) (b : Body) :
  status (snd (post_event M w userId oid b)) = 201 ->
  validate M (newEvent b userId) = None /\ events w !! oid = None.
Proof.
  intros H201.
  destruct (validate M (newEvent b userId)) as [m|] eqn:Hv.
  { by rewrite (post_event_rejected _ _ _ _ _ Hv) in H201. }
  destruct (events w !! oid) as [e|] eqn:He; [|done].
  by rewrite (post_event_duplicate _ _ _ _ Hv (mk_is_Some _ _ He)) in H201.
Qed.

(** *** The claims *)

(** C1. For an event of capacity [C] and a caller who has not joined yet,
    the join succeeds exactly when the number of attendees is below [C];
    when it succeeds the caller is appended to the stored attendees; when
    the number of attendees has reached [C] the answer is 400
    "Event is full" and the world, the stored attendees included, is the
    one before the request. *)
Theorem join_succeeds_below_capacity (w : World) (userId : ObjectId) (id : string)
    (oid : ObjectId) (e : Event) (C : Z) :
  castObjectId M id = Some oid ->
  events w !! oid = Some e ->
  capacity e = Some C ->
  userId ∉ attendees e ->
  validate M (setAttendees e (attendees e ++ [userId])) = None ->
  let n := Z.of_nat (length (attendees e)) in
  let r := post_join M w userId id in
  (outcome (snd r) = Success <-> (n < C)%Z)
  /\ ((n < C)%Z ->
      status (snd r) = 200
      /\ events (fst r) !! oid = Some (setAttendees e (attendees e ++ [userId])))
  /\ ((C <= n)%Z ->
      snd r = json 400 (JMessage "Event is full")
      /\ outcome (snd r) = Full
      /\ fst r = w
      /\ (attendees <$> events (fst r) !! oid) = Some (attendees e)).
Proof.
  intros Hc He HC Hin Hv n r.
  destruct (Z.lt_ge_cases n C) as [Hlt|Hge].
  - assert (Hcap : geNumber (length (attendees e)) (capacity e) = false).
    { rewrite HC. cbn. by apply Z.leb_gt. }
    subst r. rewrite (post_join_pushed _ _ _ _ _ Hc He Hin Hcap Hv). cbn.
    split; [done|]. split; [|lia].
    intros _. split; [done|]. apply lookup_insert_eq.
  - subst r. rewrite (post_join_full _ _ _ _ _ _ Hc He Hin HC Hge). cbn.
    split; [split; [done|lia]|]. split; [lia|].
    intros _. by rewrite He.
Qed.

(** C2. A join by a caller who is already among the attendees of the event
    is answered 400 "Already joined this event", and the world (the stored
    events, the rooms and what was emitted) is the one before the request. *)
Theorem join_again_already_joined (w : World) (userId : ObjectId) (id : string)
    (oid : ObjectId) (e : Event) :
  castObjectId M id = Some oid ->
  events w !! oid = Some e ->
  userId ∈ attendees e ->
  let r := post_join M w userId id in
  snd r = json 400 (JMessage "Already joined this event")
  /\ outcome (snd r) = AlreadyJoined
  /\ fst r = w.
Proof.
  intros Hc He Hin r. subst r.
  by rewrite (post_join_member _ _ _ _ _ Hc He Hin).
Qed.

(** The same as a sequence: a join that went through, followed by a join of
    the same caller to the same event. *)
Lemma join_then_join (w : World) (userId : ObjectId) (id : string)
    (oid : ObjectId) (e : Event) :
  castObjectId M id = Some oid ->
  events w !! oid = Some e ->
  userId ∉ attendees e ->
  geNumber (length (attendees e)) (capacity e) = false ->
  validate M (setAttendees e (attendees e ++ [userId])) = None ->
  let w1 := fst (post_join M w userId id) in
  post_join M w1 userId id = (w1, json 400 (JMessage "Already joined this event")).
Proof.
  intros Hc He Hin Hcap Hv w1. subst w1.
  rewrite (post_join_pushed _ _ _ _ _ Hc He Hin Hcap Hv). cbn.
  eapply post_join_member; [done| |].
  - cbn. apply lookup_insert_eq.
  - cbn. apply elem_of_app. right. apply list_elem_of_singleton. done.
Qed.

(** C3. After a create that answered 201, the stored event has the caller
    as creator and as only attendee, and a [GET /:id] of the new event
    answers 200 with that creator and that list of attendees. *)
Theorem create_then_get (w : World) (userId oid : ObjectId) (b : Body) (id : string) :
  status (snd (post_event M w userId oid b)) = 201 ->
  castObjectId M id = Some oid ->
  let w' := fst (post_event M w userId oid b) in
  exists e,
    events w' !! oid = Some e
    /\ creator e = userId
    /\ attendees e = [userId]
    /\ exists p viewers,
         snd (get_id M w' id) = json 200 (JViewed p viewers)
         /\ _id p = oid
         /\ paths p = e
         /\ u_id (creatorDoc p) = userId
         /\ u_id <$> attendeeDocs p = [userId].
Proof.
  intros H201 Hc w'. destruct (post_event_201 _ _ _ _ H201) as [Hv He].
  subst w'. rewrite (post_event_created _ _ _ _ Hv He). cbn.
  exists (newEvent b userId).
  split; [apply lookup_insert_eq|]. split; [done|]. split; [done|].
  eexists _, _. split.
  - erewrite get_id_found; [done|done|]. cbn. apply lookup_insert_eq.
  - done.
Qed.

(** C4. A delete by a caller who is not the creator of the event is answered
    404, nothing is deleted or emitted, and a [GET /:id] afterwards still
    answers 200 with the event as it was. *)
Theorem delete_by_non_creator (w : World) (userId : ObjectId) (id : string)
    (oid : ObjectId) (e : Event) :
  castObjectId M id = Some oid ->
  events w !! oid = Some e ->
  creator e ≠ userId ->
  let r := delete_id M w userId id in
  snd r = json 404 (JMessage "Event not found or unauthorized")
  /\ outcome (snd r) = NotFound
  /\ fst r = w
  /\ events (fst r) !! oid = Some e
  /\ snd (get_id M (fst r) id)
     = json 200 (JViewed (populate M (oid, e)) (roomSize (rooms w) id)).
Proof.
  intros Hc He Hne r.
  assert (Hr : r = (w, json 404 (JMessage "Event not found or unauthorized"))).
  { subst r. unfold delete_id, findOneAndDelete.
    rewrite (findOne_cast _ _ _ _ Hc), He. cbn.
    by rewrite decide_False by done. }
  rewrite Hr. cbn. repeat split; [done|].
  by rewrite (get_id_found _ _ _ _ Hc He).
Qed.

(** Case analysis on the condition of the outermost [if] of the goal. *)
Ltac branch :=
  match goal with
  | |- context [if ?c then _ else _] => destruct c eqn:?
  end.

(** What a route leaves of the creators: every event stored before and
    after has the creator it had. *)
Definition keepsCreators (docs docs' : gmap string Event) : Prop :=
  forall oid e e', docs !! oid = Some e -> docs' !! oid = Some e' ->
                   creator e' = creator e.

Lemma keepsCreators_refl (docs : gmap string Event) : keepsCreators docs docs.
Proof. intros oid e e' H1 H2. congruence. Qed.

Lemma keepsCreators_insert (docs : gmap string Event) (oid : ObjectId) (e' : Event) :
  (forall e, docs !! oid = Some e -> creator e' = creator e) ->
  keepsCreators docs (<[oid := e']> docs).
Proof.
  intros H k e0 e1 H0 H1. destruct (decide (oid = k)) as [->|Hne].
  - rewrite lookup_insert_eq in H1. injection H1 as <-. by apply H.
  - rewrite lookup_insert_ne in H1 by done. congruence.
Qed.

Lemma keepsCreators_delete (docs : gmap string Event) (oid : ObjectId) :
  keepsCreators docs (delete oid docs).
Proof.
  intros k e0 e1 H0 H1. apply lookup_delete_Some in H1 as [_ H1]. congruence.
Qed.

Lemma get_id_events (w : World) (id : string) : events (fst (get_id M w id)) = events w.
Proof.
  unfold get_id, findById, cast.
  destruct (castObjectId M id) as [oid|]; cbn; [|done].
  by destruct (events w !! oid).
Qed.

Lemma post_event_keeps (w : World) (userId oid : ObjectId) (b : Body) :
  keepsCreators (events w) (events (fst (post_event M w userId oid b))).
Proof.
  unfold post_event, saveNew.
  destruct (validate M (newEvent b userId)); cbn; [apply keepsCreators_refl|].
  destruct (events w !! oid) as [e|] eqn:He; cbn; [apply keepsCreators_refl|].
  apply keepsCreators_insert. intros e He'. congruence.
Qed.

Lemma Object_assign_creator (e e' : Event) (p : Patch) :
  p_creator p = None ->
  Object_assign M e p = Return e' ->
  creator e' = creator e.
Proof.
  intros Hp. unfold Object_assign. rewrite Hp. cbn.
  destruct (match p_attendees p with
            | Some l => mapM (cast M) l
            | None => mret (attendees e)
            end) as [a|err]; cbn; [|done].
  intros [= <-]. done.
Qed.

Lemma put_id_keeps (w : World) (userId : ObjectId) (id : string) (p : Patch) :
  p_creator p = None ->
  keepsCreators (events w) (events (fst (put_id M w userId id p))).
Proof.
  intros Hp. unfold put_id, findOne, cast.
  destruct (castObjectId M id) as [oid|]; cbn; [|apply keepsCreators_refl].
  destruct (events w !! oid) as [e|] eqn:He; cbn; [|apply keepsCreators_refl].
  destruct (decide (creator e = userId)); cbn; [|apply keepsCreators_refl].
  destruct (Object_assign M e p) as [e'|err] eqn:Ha; cbn; [|apply keepsCreators_refl].
  unfold save. destruct (validate M e'); cbn; [apply keepsCreators_refl|].
  apply keepsCreators_insert. intros old Hold.
  rewrite (Object_assign_creator _ _ _ Hp Ha). congruence.
Qed.

Lemma delete_id_keeps (w : World) (userId : ObjectId) (id : string) :
  keepsCreators (events w) (events (fst (delete_id M w userId id))).
Proof.
  unfold delete_id, findOneAndDelete, findOne, cast.
  destruct (castObjectId M id) as [oid|]; cbn; [|apply keepsCreators_refl].
  destruct (events w !! oid) as [e|] eqn:He; cbn; [|apply keepsCreators_refl].
  destruct (decide (creator e = userId)); cbn; [|apply keepsCreators_refl].
  apply keepsCreators_delete.
Qed.

Lemma post_join_keeps (w : World) (userId : ObjectId) (id : string) :
  keepsCreators (events w) (events (fst (post_join M w userId id))).
Proof.
  unfold post_join, findById, cast.
  destruct (castObjectId M id) as [oid|] eqn:Hc; cbn; [|apply keepsCreators_refl].
  destruct (events w !! oid) as [e|] eqn:He; cbn; [|apply keepsCreators_refl].
  branch; cbn; [apply keepsCreators_refl|].
  branch; cbn; [apply keepsCreators_refl|].
  unfold save. destruct (validate M _); cbn; [apply keepsCreators_refl|].
  apply keepsCreators_insert. intros old Hold. cbn. congruence.
Qed.

Lemma post_leave_keeps (w : World) (userId : ObjectId) (id : string) :
  keepsCreators (events w) (events (fst (post_leave M w userId id))).
Proof.
  unfold post_leave, findById, cast.
  destruct (castObjectId M id) as [oid|] eqn:Hc; cbn; [|apply keepsCreators_refl].
  destruct (events w !! oid) as [e|] eqn:He; cbn; [|apply keepsCreators_refl].
  branch; cbn; [apply keepsCreators_refl|].
  unfold save. destruct (validate M _); cbn; [apply keepsCreators_refl|].
  apply keepsCreators_insert. intros old Hold. cbn. congruence.
Qed.

(** C5, as amended.  No request other than an update whose body carries a
    [creator] changes the creator of a stored event: an event stored
    before and after the request has the same creator. *)
Theorem creator_kept_unless_assigned (w : World) (r : Request)
    (oid : ObjectId) (e e' : Event) :
  assignsCreator r = false ->
  events w !! oid = Some e ->
  events (fst (handle M w r)) !! oid = Some e' ->
  creator e' = creator e.
Proof.
  intros Hr He He'.
  assert (Hk : keepsCreators (events w) (events (fst (handle M w r)))).
  { destruct r; cbn in *.
    - rewrite get_id_events. apply keepsCreators_refl.
    - apply keepsCreators_refl.
    - apply post_event_keeps.
    - apply put_id_keeps. destruct (p_creator p); [|done].
      by rewrite bool_decide_eq_true_2 in Hr.
    - apply delete_id_keeps.
    - apply post_join_keeps.
    - apply post_leave_keeps. }
  by apply (Hk oid e e').
Qed.


(** On an identifier that does not cast to an ObjectId, [GET /:id] answers
    404 "Event not found", whereas the join, the leave, the update and the
    delete answer 500 "Server error". *)
Lemma malformed_id_responses (w : World) (userId : ObjectId) (id : string) (p : Patch) :
  castObjectId M id = None ->
  get_id M w id = (w, json 404 (JMessage "Event not found"))
  /\ post_join M w userId id = (w, json 500 (JError "Server error" (castMessage M id)))
  /\ outcome (snd (post_join M w userId id)) = ServerError
  /\ post_leave M w userId id = (w, json 500 (JError "Server error" (castMessage M id)))
  /\ put_id M w userId id p = (w, json 500 (JError "Server error" (castMessage M id)))
  /\ delete_id M w userId id = (w, json 500 (JError "Server error" (castMessage M id))).
Proof.
  intros Hc.
  unfold get_id, post_join, post_leave, put_id, delete_id, findOneAndDelete.
  rewrite !(findById_malformed _ _ Hc), !(findOne_malformed _ _ _ Hc). cbn.
  by rewrite decide_True by done.
Qed.


(** *** Rooms *)

Lemma subscribers_socketJoin (rs : gmap string (gset string)) (socketId r : string) :
  subscribers (socketJoin rs socketId r) r = {[socketId]} ∪ subscribers rs r.
Proof. unfold subscribers at 1, socketJoin. by rewrite lookup_insert_eq. Qed.

Lemma roomSize_socketJoin (rs : gmap string (gset string)) (socketId r : string) :
  roomSize (socketJoin rs socketId r) r = size ({[socketId]} ∪ subscribers rs r).
Proof. unfold roomSize, socketJoin. by rewrite lookup_insert_eq. Qed.

(** C9.  On [joinEvent] the socket is added to the room (the other rooms
    and the stored events are untouched), and then one [viewerUpdate] is
    emitted to that room, carrying the room, the number of sockets in the
    room after the join and the time that was read. *)
Theorem joinEvent_viewer_update (w : World) (socketId eventId : string) (now : Z) :
  let w' := on_joinEvent w socketId eventId now in
  subscribers (rooms w') eventId = {[socketId]} ∪ subscribers (rooms w) eventId
  /\ socketId ∈ subscribers (rooms w') eventId
  /\ (forall r, r ≠ eventId -> rooms w' !! r = rooms w !! r)
  /\ events w' = events w
  /\ outbox w'
     = (outbox w ++
        [ {| room := Some eventId;
             name := "viewerUpdate";
             payload := JViewerUpdate eventId
                          (size (subscribers (rooms w') eventId)) now |} ])%list.
Proof.
  intros w'. subst w'. unfold on_joinEvent. cbn.
  rewrite subscribers_socketJoin, roomSize_socketJoin.
  split; [done|]. split; [set_solver|]. split; [|done].
  intros r Hr. unfold socketJoin. by rewrite lookup_insert_ne.
Qed.

(** C10.  The create route does not look at the value of the capacity: for
    a capacity below 1 that the schema lets through, the create answers
    201 and the stored event has one attendee, the creator, which is more
    than its capacity. *)
Theorem create_capacity_unchecked (w : World) (userId oid : ObjectId) (b : Body) (c : Z) :
  b_capacity b = Some c ->
  (c < 1)%Z ->
  validate M (newEvent b userId) = None ->
  events w !! oid = None ->
  let r := post_event M w userId oid b in
  status (snd r) = 201
  /\ exists e, events (fst r) !! oid = Some e
              /\ capacity e = Some c
              /\ attendees e = [userId]
              /\ (c < Z.of_nat (length (attendees e)))%Z.
Proof.
  intros Hb Hc Hv He r. subst r. rewrite (post_event_created _ _ _ _ Hv He). cbn.
  split; [done|]. exists (newEvent b userId).
  split; [apply lookup_insert_eq|]. cbn. split; [done|]. split; [done|]. lia.
Qed.

End Properties.

(** ** The claims on the sample data

    Alice creates the party; bob and carol are two other users. *)

Lemma party_stored (c : Z) : events (partyWorld c) !! party = Some (partyEvent c).
Proof. vm_compute. reflexivity. Qed.

Lemma bob_not_in_party (c : Z) : bob ∉ attendees (partyEvent c).
Proof. cbn. intros H. apply list_elem_of_singleton in H. discriminate H. Qed.

Lemma alice_in_party (c : Z) : alice ∈ attendees (partyEvent c).
Proof. cbn. apply list_elem_of_singleton. reflexivity. Qed.

(** With capacity 2 and one attendee, bob's join goes through. *)
Lemma join_succeeds_below_capacity_witness :
  outcome (snd (post_join sampleMongoose (partyWorld 2) bob party)) = Success
  /\ events (fst (post_join sampleMongoose (partyWorld 2) bob party)) !! party
     = Some (setAttendees (partyEvent 2) [alice; bob]).
Proof.
  destruct (join_succeeds_below_capacity sampleMongoose (partyWorld 2) bob party
              party (partyEvent 2) 2) as (Hiff & Hok & _).
  - vm_compute. reflexivity.
  - apply party_stored.
  - reflexivity.
  - apply bob_not_in_party.
  - vm_compute. reflexivity.
  - split.
    + apply Hiff. vm_compute. reflexivity.
    + apply Hok. vm_compute. reflexivity.
Defined.

(** With capacity 1 the party is full once alice has created it. *)
Example join_full_party :
  post_join sampleMongoose (partyWorld 1) bob party
  = (partyWorld 1, json 400 (JMessage "Event is full")).
Proof. vm_compute. reflexivity. Qed.

Lemma join_again_already_joined_witness :
  snd (post_join sampleMongoose (partyWorld 2) alice party)
    = json 400 (JMessage "Already joined this event")
  /\ outcome (snd (post_join sampleMongoose (partyWorld 2) alice party)) = AlreadyJoined
  /\ fst (post_join sampleMongoose (partyWorld 2) alice party) = partyWorld 2.
Proof.
  apply (join_again_already_joined sampleMongoose (partyWorld 2) alice party
           party (partyEvent 2)).
  - vm_compute. reflexivity.
  - apply party_stored.
  - apply alice_in_party.
Defined.

Lemma create_then_get_witness :
  exists e,
    events (partyWorld 2) !! party = Some e
    /\ creator e = alice
    /\ attendees e = [alice]
    /\ exists p viewers,
         snd (get_id sampleMongoose (partyWorld 2) party) = json 200 (JViewed p viewers)
         /\ _id p = party
         /\ paths p = e
         /\ u_id (creatorDoc p) = alice
         /\ u_id <$> attendeeDocs p = [alice].
Proof.
  apply (create_then_get sampleMongoose emptyWorld alice party (partyBody 2) party).
  - vm_compute. reflexivity.
  - vm_compute. reflexivity.
Defined.

Lemma delete_by_non_creator_witness :
  snd (delete_id sampleMongoose (partyWorld 2) bob party)
    = json 404 (JMessage "Event not found or unauthorized")
  /\ outcome (snd (delete_id sampleMongoose (partyWorld 2) bob party)) = NotFound
  /\ fst (delete_id sampleMongoose (partyWorld 2) bob party) = partyWorld 2
  /\ events (fst (delete_id sampleMongoose (partyWorld 2) bob party)) !! party
     = Some (partyEvent 2)
  /\ snd (get_id sampleMongoose (fst (delete_id sampleMongoose (partyWorld 2) bob party)) party)
     = json 200 (JViewed (populate sampleMongoose (party, partyEvent 2))
                         (roomSize (rooms (partyWorld 2)) party)).
Proof.
  apply (delete_by_non_creator sampleMongoose (partyWorld 2) bob party party
           (partyEvent 2)).
  - vm_compute. reflexivity.
  - apply party_stored.
  - cbn. discriminate.
Defined.

(** C5 as stated fails: alice, the creator, sends an update whose body is
    [{ creator: bob }]; the update answers 200 and the stored creator of
    the party is bob afterwards. *)
Lemma update_overwrites_creator :
  creator <$> events (partyWorld 2) !! party = Some alice
  /\ status (snd (put_id sampleMongoose (partyWorld 2) alice party handOver)) = 200
  /\ creator <$> events (fst (put_id sampleMongoose (partyWorld 2) alice party handOver))
                   !! party
     = Some bob
  /\ alice <> bob.
Proof. vm_compute. repeat split; discriminate. Qed.

(** Bob's join leaves alice the creator of the party. *)
Lemma creator_kept_unless_assigned_witness :
  creator (setAttendees (partyEvent 2) [alice; bob]) = creator (partyEvent 2).
Proof.
  apply (creator_kept_unless_assigned sampleMongoose (partyWorld 2)
           (POST_join bob party) party).
  - reflexivity.
  - apply party_stored.
  - vm_compute. reflexivity.
Defined.



(** C7.  The identifier ["party"] is not an ObjectId: [GET /:id] answers
    404, the join answers 500 "Server error". *)
Theorem join_malformed_id_server_error :
  get_id sampleMongoose (partyWorld 2) "party"
    = (partyWorld 2, json 404 (JMessage "Event not found"))
  /\ post_join sampleMongoose (partyWorld 2) bob "party"
     = (partyWorld 2,
        json 500 (JError "Server error" "Cast to ObjectId failed for value party"))
  /\ outcome (snd (post_join sampleMongoose (partyWorld 2) bob "party")) = ServerError
  /\ outcome (snd (post_join sampleMongoose (partyWorld 2) bob "party")) <> NotFound.
Proof.
  destruct (malformed_id_responses sampleMongoose (partyWorld 2) bob "party" handOver)
    as (Hget & Hjoin & Hout & _); [vm_compute; reflexivity|].
  rewrite Hget, Hjoin. repeat split. cbn. discriminate.
Qed.


(** A create with capacity 0 goes through under the required-paths schema. *)
Lemma create_capacity_unchecked_witness :
  status (snd (post_event sampleMongoose emptyWorld alice party (partyBody 0))) = 201
  /\ exists e, events (fst (post_event sampleMongoose emptyWorld alice party (partyBody 0)))
                 !! party = Some e
              /\ capacity e = Some 0%Z
              /\ attendees e = [alice]
              /\ (0 < Z.of_nat (length (attendees e)))%Z.
Proof.
  apply (create_capacity_unchecked sampleMongoose emptyWorld alice party (partyBody 0) 0).
  - reflexivity.
  - reflexivity.
  - vm_compute. reflexivity.
  - vm_compute. reflexivity.
Defined.

(** Two sockets join the room of the party and the first one leaves: the
    three [viewerUpdate] emissions carry the counts 1, 2 and 1. *)
Example presence_counts :
  payload <$> outbox (on_leaveEvent
                        (on_joinEvent (on_joinEvent emptyWorld "s1" party 10) "s2" party 11)
                        "s1" party 12)
  = [JViewerUpdate party 1 10; JViewerUpdate party 2 11; JViewerUpdate party 1 12].
Proof. vm_compute. reflexivity. Qed.

(** ** Further properties of the routes *)

Section Routes.

Variable M : Mongoose.

(** Runs a route down to its leaves: every query, condition and write is
    split into its cases. *)
Ltac leaves :=
  unfold get_id, get_all, post_event, put_id, delete_id, post_join, post_leave,
    findOneAndDelete, findOne, findById, cast, save, saveNew in *;
  repeat (cbn in *; case_match); simplify_eq; cbn in *.

(** X1.  A request that is not answered 200 or 201 leaves the world as it
    was: nothing is stored, deleted or emitted. *)
Theorem failure_leaves_world (w : World) (r : Request) :
  succeeded (snd (handle M w r)) = false ->
  fst (handle M w r) = w.
Proof.
  destruct r as [id| |userId oid b|userId id p|userId id|userId id|userId id];
    cbn [handle].
  - leaves; done.
  - leaves; done.
  - leaves; done.
  - unfold put_id, findOne, cast.
    destruct (castObjectId M id) as [oid|]; cbn; [|done].
    destruct (events w !! oid) as [e|]; cbn; [|done].
    destruct (decide (creator e = userId)); cbn; [|done].
    destruct (Object_assign M e p) as [e'|err]; cbn; [|done].
    unfold save. destruct (validate M e'); cbn; done.
  - leaves; done.
  - leaves; done.
  - leaves; done.
Qed.

Lemma put_id_cases (w : World) (userId : ObjectId) (id : string) (p : Patch) :
  (put_id M w userId id p = (w, json 500 (JError "Server error" (castMessage M id)))
   /\ castObjectId M id = None)
  \/ (put_id M w userId id p = (w, json 404 (JMessage "Event not found or unauthorized"))
      /\ exists oid, castObjectId M id = Some oid
           /\ forall e, events w !! oid = Some e -> creator e ≠ userId)
  \/ (exists oid e, castObjectId M id = Some oid /\ events w !! oid = Some e
        /\ creator e = userId
        /\ ((exists m, put_id M w userId id p = (w, json 500 (JError "Server error" m)))
            \/ (exists e', Object_assign M e p = Return e'
                  /\ validate M e' = None
                  /\ put_id M w userId id p
                     = (emit (setEvents w (<[oid := e']> (events w))) (Some id)
                             "eventUpdated" (JEvent oid e'),
                        json 200 (JEvent oid e'))))).
Proof.
  unfold put_id, findOne, cast.
  destruct (castObjectId M id) as [oid|] eqn:Hc; cbn; [|by left].
  right.
  destruct (events w !! oid) as [e|] eqn:He; cbn;
    [|left; split; [done|]; exists oid; split; [done|]; intros e0 ?; congruence].
  destruct (decide (creator e = userId)) as [Hcr|Hcr]; cbn;
    [|left; split; [done|]; exists oid; split; [done|]; intros e0 ?; by simplify_eq].
  right. exists oid, e. split; [done|]. split; [done|]. split; [done|].
  destruct (Object_assign M e p) as [e'|err] eqn:Ha; cbn;
    [|left; eexists; reflexivity].
  unfold save. destruct (validate M e') eqn:Hv; cbn; [left; eexists; reflexivity|].
  right. exists e'. done.
Qed.

(** X2.  No request of the HTTP interface changes the rooms: who is in
    which room is decided by the sockets alone. *)
Theorem requests_keep_rooms (w : World) (r : Request) :
  rooms (fst (handle M w r)) = rooms w.
Proof.
  destruct r as [id| |userId oid b|userId id p|userId id|userId id|userId id];
    cbn [handle]; try (leaves; done).
  destruct (put_id_cases w userId id p)
    as [[-> _]|[[-> _]|(oid & e & _ & _ & _ & [[m ->]|(e' & _ & _ & ->)])]]; done.
Qed.

(** X3.  A request emits at most once, and exactly when it is answered
    with success (the list of all events never emits).  A create and a
    delete emit to everybody, the other routes to the room named by the
    identifier of the request; a delete emits ["eventDeleted"] with the
    identifier, the other routes emit ["eventUpdated"] with the very
    body of the response. *)
Theorem success_is_announced (w : World) (r : Request) :
  outbox (fst (handle M w r))
  = match announcement r with
    | Some (audience, n) =>
        if succeeded (snd (handle M w r))
        then (outbox w ++
              [ {| room := audience; name := n;
                   payload := match r with
                              | DELETE_id _ id => JId id
                              | _ => body (snd (handle M w r))
                              end |} ])%list
        else outbox w
    | None => outbox w
    end.
Proof.
  destruct r as [id| |userId oid b|userId id p|userId id|userId id|userId id];
    cbn [handle announcement]; try (leaves; done).
  destruct (put_id_cases w userId id p)
    as [[-> _]|[[-> _]|(oid & e & _ & _ & _ & [[m ->]|(e' & _ & _ & ->)])]]; done.
Qed.


(** X5.  An identifier that casts to an ObjectId under which nothing is
    stored is answered 404 by the five routes that take one, and the world
    is left as it was. *)
Theorem absent_event_not_found (w : World) (userId : ObjectId) (id : string)
    (oid : ObjectId) (p : Patch) :
  castObjectId M id = Some oid ->
  events w !! oid = None ->
  get_id M w id = (w, json 404 (JMessage "Event not found"))
  /\ post_join M w userId id = (w, json 404 (JMessage "Event not found"))
  /\ post_leave M w userId id = (w, json 404 (JMessage "Event not found"))
  /\ put_id M w userId id p = (w, json 404 (JMessage "Event not found or unauthorized"))
  /\ delete_id M w userId id = (w, json 404 (JMessage "Event not found or unauthorized")).
Proof.
  intros Hc He.
  unfold get_id, post_join, post_leave, put_id, delete_id, findOneAndDelete.
  rewrite !(findById_cast _ _ _ _ Hc), !(findOne_cast _ _ _ _ _ Hc), He. done.
Qed.

(** X6.  To a caller who is not the creator, the update and the delete
    answer exactly what they would answer if the event were not stored at
    all, and they change nothing. *)
Theorem non_creator_sees_absence (w : World) (userId : ObjectId) (id : string)
    (oid : ObjectId) (e : Event) (p : Patch) :
  castObjectId M id = Some oid ->
  events w !! oid = Some e ->
  creator e ≠ userId ->
  snd (put_id M w userId id p)
    = snd (put_id M (setEvents w (delete oid (events w))) userId id p)
  /\ snd (delete_id M w userId id)
     = snd (delete_id M (setEvents w (delete oid (events w))) userId id)
  /\ fst (put_id M w userId id p) = w
  /\ fst (delete_id M w userId id) = w.
Proof.
  intros Hc He Hne.
  unfold put_id, delete_id, findOneAndDelete.
  rewrite !(findOne_cast _ _ _ _ _ Hc), He. cbn.
  rewrite lookup_delete_eq, decide_False by done. done.
Qed.

(** X7.  An update is answered with success only to the creator of a
    stored event. *)
Theorem update_only_by_creator (w : World) (userId : ObjectId) (id : string) (p : Patch) :
  succeeded (snd (put_id M w userId id p)) = true ->
  exists oid e,
    castObjectId M id = Some oid /\ events w !! oid = Some e /\ creator e = userId.
Proof.
  intros Hok.
  destruct (put_id_cases w userId id p)
    as [[Hr _]|[[Hr _]|(oid & e & Hc & He & Hcr & _)]].
  - by rewrite Hr in Hok.
  - by rewrite Hr in Hok.
  - by exists oid, e.
Qed.

(** X8.  A delete is answered with success exactly when the caller is the
    creator of a stored event. *)
Theorem delete_only_by_creator (w : World) (userId : ObjectId) (id : string) :
  succeeded (snd (delete_id M w userId id)) = true
  <-> exists oid e,
        castObjectId M id = Some oid /\ events w !! oid = Some e /\ creator e = userId.
Proof.
  unfold delete_id, findOneAndDelete, findOne, cast. split.
  - destruct (castObjectId M id) as [oid|] eqn:Hc; cbn; [|done].
    destruct (events w !! oid) as [e|] eqn:He; cbn; [|done].
    destruct (decide (creator e = userId)); cbn; [|done].
    intros _. by exists oid, e.
  - intros (oid & e & -> & He & Hcr). cbn. rewrite He.
    by rewrite decide_True by done.
Qed.

(** X9.  When the creator deletes an event, the document is removed from
    the collection, ["eventDeleted"] is emitted to everybody with the
    identifier of the request, and a [GET /:id] afterwards answers 404. *)
Theorem delete_then_get (w : World) (userId : ObjectId) (id : string)
    (oid : ObjectId) (e : Event) :
  castObjectId M id = Some oid ->
  events w !! oid = Some e ->
  creator e = userId ->
  delete_id M w userId id
    = (emit (setEvents w (delete oid (events w))) None "eventDeleted" (JId id),
       json 200 (JMessage "Event deleted successfully"))
  /\ events (fst (delete_id M w userId id)) !! oid = None
  /\ snd (get_id M (fst (delete_id M w userId id)) id)
     = json 404 (JMessage "Event not found").
Proof.
  intros Hc He Hcr.
  assert (Hd : delete_id M w userId id
               = (emit (setEvents w (delete oid (events w))) None "eventDeleted" (JId id),
                  json 200 (JMessage "Event deleted successfully"))).
  { unfold delete_id, findOneAndDelete.
    rewrite (findOne_cast _ _ _ _ _ Hc), He. cbn. by rewrite decide_True by done. }
  rewrite Hd. cbn. split; [done|]. split; [apply lookup_delete_eq|].
  unfold get_id. rewrite (findById_cast _ _ _ _ Hc). cbn.
  by rewrite lookup_delete_eq.
Qed.


(** *** What each route leaves in the collection *)

Lemma post_event_events (w : World) (userId oid : ObjectId) (b : Body) :
  events (fst (post_event M w userId oid b)) = events w
  \/ (events w !! oid = None
      /\ events (fst (post_event M w userId oid b))
         = <[oid := newEvent b userId]> (events w)).
Proof.
  unfold post_event, saveNew.
  destruct (validate M (newEvent b userId)); cbn; [by left|].
  destruct (events w !! oid); cbn; [by left|by right].
Qed.

Lemma put_id_events (w : World) (userId : ObjectId) (id : string) (p : Patch) :
  events (fst (put_id M w userId id p)) = events w
  \/ exists oid e e',
       events w !! oid = Some e
       /\ Object_assign M e p = Return e'
       /\ events (fst (put_id M w userId id p)) = <[oid := e']> (events w).
Proof.
  destruct (put_id_cases w userId id p)
    as [[-> _]|[[-> _]|(oid & e & _ & He & _ & [[m ->]|(e' & Ha & _ & ->)])]];
    try by left.
  right. by exists oid, e, e'.
Qed.

Lemma delete_id_events (w : World) (userId : ObjectId) (id : string) :
  events (fst (delete_id M w userId id)) = events w
  \/ exists oid, events (fst (delete_id M w userId id)) = delete oid (events w).
Proof.
  unfold delete_id, findOneAndDelete, findOne, cast.
  destruct (castObjectId M id) as [oid|]; cbn; [|by left].
  destruct (events w !! oid) as [e|]; cbn; [|by left].
  destruct (decide (creator e = userId)); cbn; [|by left].
  right. by exists oid.
Qed.

Lemma post_join_events (w : World) (userId : ObjectId) (id : string) :
  events (fst (post_join M w userId id)) = events w
  \/ exists oid e,
       events w !! oid = Some e
       /\ (userId ∉ attendees e)
       /\ geNumber (length (attendees e)) (capacity e) = false
       /\ events (fst (post_join M w userId id))
          = <[oid := setAttendees e (attendees e ++ [userId])]> (events w).
Proof.
  unfold post_join, findById, cast.
  destruct (castObjectId M id) as [oid|] eqn:Hc; cbn; [|by left].
  destruct (events w !! oid) as [e|] eqn:He; cbn; [|by left].
  rewrite some_populate, length_fmap, depopulate_populate.
  destruct (decide (userId ∈ attendees e)) as [Hin|Hin].
  { rewrite bool_decide_eq_true_2 by done. by left. }
  rewrite bool_decide_eq_false_2 by done.
  destruct (geNumber (length (attendees e)) (capacity e)) eqn:Hfull; cbn; [by left|].
  unfold save. destruct (validate M _); cbn; [by left|].
  right. by exists oid, e.
Qed.

Lemma post_leave_events (w : World) (userId : ObjectId) (id : string) :
  events (fst (post_leave M w userId id)) = events w
  \/ exists oid e,
       events w !! oid = Some e
       /\ events (fst (post_leave M w userId id))
          = <[oid := setAttendees e (filter (fun x => x ≠ userId) (attendees e))]>
              (events w).
Proof.
  unfold post_leave, findById, cast.
  destruct (castObjectId M id) as [oid|] eqn:Hc; cbn; [|by left].
  destruct (events w !! oid) as [e|] eqn:He; cbn; [|by left].
  rewrite some_populate, filter_populate.
  destruct (bool_decide (userId ∈ attendees e)); cbn; [|by left].
  unfold save. destruct (validate M _); cbn; [by left|].
  right. by exists oid, e.
Qed.

Lemma Object_assign_keeps (e e' : Event) (p : Patch) :
  Object_assign M e p = Return e' ->
  (p_attendees p = None -> attendees e' = attendees e)
  /\ (p_capacity p = None -> capacity e' = capacity e).
Proof.
  unfold Object_assign.
  destruct (match p_creator p with
            | Some s0 => cast M s0
            | None => mret (creator e)
            end) as [c|err]; cbn; [|done].
  destruct (p_attendees p) as [l|]; cbn.
  - destruct (mapM (cast M) l) as [a|err]; cbn; [|done].
    intros [= <-]. cbn. split; [done|]. by intros ->.
  - intros [= <-]. cbn. split; [done|]. by intros ->.
Qed.

(** X11.  Every route but an update whose body carries [attendees] keeps
    the attendees of every stored event free of duplicates. *)
Theorem attendees_stay_distinct (w : World) (r : Request) :
  assignsAttendees r = false ->
  map_Forall (fun _ e => NoDup (attendees e)) (events w) ->
  map_Forall (fun _ e => NoDup (attendees e)) (events (fst (handle M w r))).
Proof.
  intros Hr Hw.
  destruct r as [id| |userId oid b|userId id p|userId id|userId id|userId id];
    cbn [handle].
  - by rewrite get_id_events.
  - done.
  - destruct (post_event_events w userId oid b) as [->|[_ ->]]; [done|].
    apply map_Forall_insert_2; [|done]. cbn. apply NoDup_singleton.
  - destruct (put_id_events w userId id p) as [->|(oid & e & e' & He & Ha & ->)];
      [done|].
    apply map_Forall_insert_2; [|done].
    destruct (Object_assign_keeps _ _ _ Ha) as [Hat _]. rewrite Hat.
    + by apply (Hw oid).
    + cbn in Hr. destruct (p_attendees p); [|done].
      by rewrite bool_decide_eq_true_2 in Hr.
  - destruct (delete_id_events w userId id) as [->|[oid ->]]; [done|].
    by apply map_Forall_delete.
  - destruct (post_join_events w userId id) as [->|(oid & e & He & Hin & _ & ->)];
      [done|].
    apply map_Forall_insert_2; [|done]. cbn.
    apply NoDup_app. split; [by apply (Hw oid)|]. split; [|apply NoDup_singleton].
    intros x Hx Hx'. apply list_elem_of_singleton in Hx'. by subst.
  - destruct (post_leave_events w userId id) as [->|(oid & e & He & ->)]; [done|].
    apply map_Forall_insert_2; [|done]. cbn.
    apply NoDup_filter. by apply (Hw oid).
Qed.


(** *** Compositions *)

Lemma put_id_capacity (w : World) (userId : ObjectId) (id : string)
    (oid : ObjectId) (e : Event) (c : Z) :
  castObjectId M id = Some oid ->
  events w !! oid = Some e ->
  creator e = userId ->
  validate M (setCapacity e c) = None ->
  put_id M w userId id (capacityPatch c)
  = (emit (setEvents w (<[oid := setCapacity e c]> (events w))) (Some id)
          "eventUpdated" (JEvent oid (setCapacity e c)),
     json 200 (JEvent oid (setCapacity e c))).
Proof.
  intros Hc He Hcr Hv. unfold put_id.
  rewrite (findOne_cast _ _ _ _ _ Hc), He. cbn.
  rewrite decide_True by done. cbn. fold (setCapacity e c).
  unfold save. by rewrite Hv.
Qed.

(** X13.  The update does not compare the capacity with the attendees: the
    creator can lower the capacity to any value the schema accepts, also
    below the number of attendees, which stay as they are; from then on a
    join of a new caller is refused with "Event is full". *)
Theorem shrink_then_join_full (w : World) (userId caller : ObjectId) (id : string)
    (oid : ObjectId) (e : Event) (c : Z) :
  castObjectId M id = Some oid ->
  events w !! oid = Some e ->
  creator e = userId ->
  validate M (setCapacity e c) = None ->
  (c <= Z.of_nat (length (attendees e)))%Z ->
  caller ∉ attendees e ->
  status (snd (put_id M w userId id (capacityPatch c))) = 200
  /\ events (fst (put_id M w userId id (capacityPatch c))) !! oid
     = Some (setCapacity e c)
  /\ snd (post_join M (fst (put_id M w userId id (capacityPatch c))) caller id)
     = json 400 (JMessage "Event is full").
Proof.
  intros Hc He Hcr Hv Hle Hin.
  rewrite (put_id_capacity _ _ _ _ _ _ Hc He Hcr Hv). cbn.
  split; [done|]. split; [apply lookup_insert_eq|].
  erewrite (post_join_full M _ caller id oid (setCapacity e c) c); try done.
  cbn. apply lookup_insert_eq.
Qed.

Lemma filter_not_member (u : ObjectId) (l : list ObjectId) :
  u ∉ l -> filter (fun x => x ≠ u) l = l.
Proof.
  induction l as [|x l IH]; [done|].
  intros Hin. apply not_elem_of_cons in Hin as [Hne Hin].
  rewrite filter_cons_True by done. by rewrite IH.
Qed.

Lemma setAttendees_twice (e : Event) (l l' : list ObjectId) :
  setAttendees (setAttendees e l) l' = setAttendees e l'.
Proof. done. Qed.

Lemma post_leave_removed (w : World) (userId : ObjectId) (id : string)
    (oid : ObjectId) (e : Event) :
  castObjectId M id = Some oid ->
  events w !! oid = Some e ->
  userId ∈ attendees e ->
  validate M (setAttendees e (filter (fun x => x ≠ userId) (attendees e))) = None ->
  post_leave M w userId id
  = (emit (setEvents w (<[oid := setAttendees e (filter (fun x => x ≠ userId)
                                                        (attendees e))]> (events w)))
          (Some id) "eventUpdated"
          (JPopulated (populate M (oid, setAttendees e (filter (fun x => x ≠ userId)
                                                               (attendees e))))),
     json 200
       (JPopulated (populate M (oid, setAttendees e (filter (fun x => x ≠ userId)
                                                            (attendees e)))))).
Proof.
  intros Hc He Hin Hv. unfold post_leave.
  rewrite (findById_cast _ _ _ _ Hc), He. cbn.
  rewrite some_populate, bool_decide_eq_true_2 by done. cbn.
  rewrite filter_populate. unfold save. rewrite Hv. cbn.
  rewrite (findById_cast _ _ _ _ Hc), lookup_insert_eq. done.
Qed.

(** X14.  A join that went through, followed by a leave of the same caller,
    brings the collection back to what it was: the caller had been appended
    and is the only member removed. *)
Theorem join_then_leave (w : World) (userId : ObjectId) (id : string)
    (oid : ObjectId) (e : Event) :
  castObjectId M id = Some oid ->
  events w !! oid = Some e ->
  userId ∉ attendees e ->
  geNumber (length (attendees e)) (capacity e) = false ->
  validate M (setAttendees e (attendees e ++ [userId])) = None ->
  validate M e = None ->
  status (snd (post_join M w userId id)) = 200
  /\ status (snd (post_leave M (fst (post_join M w userId id)) userId id)) = 200
  /\ events (fst (post_leave M (fst (post_join M w userId id)) userId id)) = events w.
Proof.
  intros Hc He Hin Hcap Hv Hve.
  rewrite (post_join_pushed M _ _ _ _ _ Hc He Hin Hcap Hv). cbn [fst snd].
  split; [done|].
  assert (Hkept : filter (fun x => x ≠ userId)
                    (attendees (setAttendees e (attendees e ++ [userId])))
                  = attendees e).
  { cbn. rewrite filter_app, filter_not_member by done.
    rewrite filter_cons_False by (intros Hne; by apply Hne).
    by rewrite filter_nil, app_nil_r. }
  erewrite (post_leave_removed _ userId id oid
              (setAttendees e (attendees e ++ [userId]))); [| done | | |].
  - rewrite Hkept, setAttendees_twice, setAttendees_id. cbn.
    split; [done|]. rewrite insert_insert_eq. by apply insert_id.
  - cbn. apply lookup_insert_eq.
  - cbn. apply elem_of_app. right. by apply list_elem_of_singleton.
  - by rewrite Hkept, setAttendees_twice, setAttendees_id.
Qed.

(** X21.  An update whose body names another user as [creator] hands the
    event over: from then on the former creator is answered 404 by the
    update and the delete, and the new creator can delete the event. *)
Theorem hand_over_moves_rights (w : World) (userId : ObjectId) (id : string)
    (oid : ObjectId) (e : Event) (s : string) (c : ObjectId) (p : Patch) :
  castObjectId M id = Some oid ->
  events w !! oid = Some e ->
  creator e = userId ->
  castObjectId M s = Some c ->
  c ≠ userId ->
  validate M (setCreator e c) = None ->
  status (snd (put_id M w userId id (creatorPatch s))) = 200
  /\ events (fst (put_id M w userId id (creatorPatch s))) !! oid = Some (setCreator e c)
  /\ snd (put_id M (fst (put_id M w userId id (creatorPatch s))) userId id p)
     = json 404 (JMessage "Event not found or unauthorized")
  /\ snd (delete_id M (fst (put_id M w userId id (creatorPatch s))) userId id)
     = json 404 (JMessage "Event not found or unauthorized")
  /\ snd (delete_id M (fst (put_id M w userId id (creatorPatch s))) c id)
     = json 200 (JMessage "Event deleted successfully").
Proof.
  intros Hc He Hcr Hs Hne Hv.
  assert (Hput : put_id M w userId id (creatorPatch s)
                 = (emit (setEvents w (<[oid := setCreator e c]> (events w))) (Some id)
                         "eventUpdated" (JEvent oid (setCreator e c)),
                    json 200 (JEvent oid (setCreator e c)))).
  { unfold put_id. rewrite (findOne_cast _ _ _ _ _ Hc), He. cbn.
    rewrite decide_True by done. cbn. unfold cast. rewrite Hs. cbn.
    fold (setCreator e c). unfold save. by rewrite Hv. }
  rewrite Hput. cbn [fst snd status json].
  split; [done|]. split; [apply lookup_insert_eq|].
  unfold put_id, delete_id, findOneAndDelete.
  rewrite !(findOne_cast _ _ _ _ _ Hc). cbn. rewrite !lookup_insert_eq. cbn.
  rewrite decide_False by done. by rewrite decide_True by done.
Qed.

Lemma dateLe_total : Total dateLe.
Proof.
  intros a b. unfold dateLe.
  destruct (date (snd a)), (date (snd b)); try (by left); try (by right). lia.
Qed.

Lemma dateLe_trans : Transitive dateLe.
Proof.
  intros a b c. unfold dateLe.
  destruct (date (snd a)), (date (snd b)), (date (snd c)); try done. lia.
Qed.

(** X15.  The list of all events answers 200 with every stored event
    exactly once, each with the name of its creator, in ascending order of
    date (an event without a date comes before the dated ones); it changes
    nothing and emits nothing. *)
Theorem list_is_sorted_by_date (w : World) :
  exists l,
    get_all M w = (w, json 200 (JEvents (populateCreatorName M <$> l)))
    /\ l ≡ₚ map_to_list (events w)
    /\ StronglySorted dateLe l
    /\ forall oid e, (oid, e) ∈ l <-> events w !! oid = Some e.
Proof.
  pose proof dateLe_total. pose proof dateLe_trans.
  exists (merge_sort dateLe (map_to_list (events w))).
  split; [done|]. split; [apply merge_sort_Permutation|].
  split; [by apply StronglySorted_merge_sort|].
  intros oid e. rewrite merge_sort_Permutation. apply elem_of_map_to_list.
Qed.

End Routes.

(** ** Further properties of the rooms *)

Section Presence.

Variable M : Mongoose.

#[local] Set Warnings "-clear-no-such-hyp".

Lemma roomSize_subscribers (rs : gmap string (gset string)) (r : string) :
  roomSize rs r = size (subscribers rs r).
Proof. unfold roomSize, subscribers. by destruct (rs !! r). Qed.

Lemma subscribers_socketJoin_ne (rs : gmap string (gset string)) (socketId r r' : string) :
  r' ≠ r -> subscribers (socketJoin rs socketId r) r' = subscribers rs r'.
Proof. intros Hne. unfold subscribers, socketJoin. by rewrite lookup_insert_ne. Qed.

Lemma subscribers_socketLeave (rs : gmap string (gset string)) (socketId r : string) :
  subscribers (socketLeave rs socketId r) r = subscribers rs r ∖ {[socketId]}.
Proof.
  unfold subscribers, socketLeave.
  destruct (rs !! r) as [sockets|] eqn:Hr; cbn.
  - destruct (decide (sockets ∖ {[socketId]} = ∅)) as [Hempty|Hrest].
    + by rewrite lookup_delete_eq, Hempty.
    + by rewrite lookup_insert_eq.
  - rewrite Hr. cbn. set_solver.
Qed.

Lemma lookup_socketLeave_ne (rs : gmap string (gset string)) (socketId r r' : string) :
  r' ≠ r -> socketLeave rs socketId r !! r' = rs !! r'.
Proof.
  intros Hne. unfold socketLeave.
  destruct (rs !! r) as [sockets|]; [|done].
  destruct (decide (sockets ∖ {[socketId]} = ∅)).
  - by rewrite lookup_delete_ne.
  - by rewrite lookup_insert_ne.
Qed.

(** X16.  On [leaveEvent] the socket is taken out of the room (the other
    rooms and the stored events are untouched), and then one
    [viewerUpdate] is emitted to that room with the number of sockets that
    remain: one less than before when the socket was in the room, the same
    number when it was not. *)
Theorem leaveEvent_viewer_update (w : World) (socketId eventId : string) (now : Z) :
  let w' := on_leaveEvent w socketId eventId now in
  let before := subscribers (rooms w) eventId in
  subscribers (rooms w') eventId = before ∖ {[socketId]}
  /\ (forall r, r ≠ eventId -> rooms w' !! r = rooms w !! r)
  /\ events w' = events w
  /\ outbox w'
     = (outbox w ++
        [ {| room := Some eventId;
             name := "viewerUpdate";
             payload := JViewerUpdate eventId (size (before ∖ {[socketId]})) now |} ])%list
  /\ (socketId ∈ before -> S (size (before ∖ {[socketId]})) = size before)
  /\ (socketId ∉ before -> size (before ∖ {[socketId]}) = size before).
Proof.
  intros w' before. subst w'. unfold on_leaveEvent. cbn.
  rewrite roomSize_subscribers, subscribers_socketLeave. fold before.
  split; [done|]. split; [intros r Hr; by apply lookup_socketLeave_ne|].
  split; [done|]. split; [done|]. split.
  - intros Hin. rewrite size_difference by set_solver.
    rewrite size_singleton.
    assert (size before ≠ 0); [|lia].
    intros Hz. apply size_empty_inv in Hz. set_solver.
  - intros Hin. f_equal. set_solver.
Qed.

(** X17.  Joining a room twice is joining it once: the rooms after the
    second [joinEvent] of a socket are the rooms after the first, and the
    second [viewerUpdate] carries the same count as the first. *)
Theorem joinEvent_twice (w : World) (socketId eventId : string) (t1 t2 : Z) :
  let w1 := on_joinEvent w socketId eventId t1 in
  let w2 := on_joinEvent w1 socketId eventId t2 in
  rooms w2 = rooms w1
  /\ outbox w2
     = (outbox w ++
        [ {| room := Some eventId; name := "viewerUpdate";
             payload := JViewerUpdate eventId
                          (size ({[socketId]} ∪ subscribers (rooms w) eventId)) t1 |};
          {| room := Some eventId; name := "viewerUpdate";
             payload := JViewerUpdate eventId
                          (size ({[socketId]} ∪ subscribers (rooms w) eventId)) t2 |} ])%list.
Proof.
  intros w1 w2. subst w1 w2. unfold on_joinEvent. cbn.
  assert (Hsame : socketJoin (socketJoin (rooms w) socketId eventId) socketId eventId
                  = socketJoin (rooms w) socketId eventId).
  { unfold socketJoin at 1. rewrite subscribers_socketJoin.
    unfold socketJoin. rewrite insert_insert_eq. f_equal. set_solver. }
  rewrite Hsame, !roomSize_socketJoin. split; [done|].
  by rewrite <- app_assoc.
Qed.

(** X18.  A socket that was not in a room, joins it and leaves it again,
    leaves every room with the sockets it had; the two [viewerUpdate]
    emissions count one more than before, then the same as before. *)
Theorem joinEvent_then_leaveEvent (w : World) (socketId eventId : string) (t1 t2 : Z) :
  socketId ∉ subscribers (rooms w) eventId ->
  let w2 := on_leaveEvent (on_joinEvent w socketId eventId t1) socketId eventId t2 in
  (forall r, subscribers (rooms w2) r = subscribers (rooms w) r)
  /\ payload <$> drop (length (outbox w)) (outbox w2)
     = [ JViewerUpdate eventId (S (size (subscribers (rooms w) eventId))) t1;
         JViewerUpdate eventId (size (subscribers (rooms w) eventId)) t2 ].
Proof.
  intros Hnot w2. subst w2. unfold on_leaveEvent, on_joinEvent. cbn.
  assert (Hback : ({[socketId]} ∪ subscribers (rooms w) eventId) ∖ {[socketId]}
                  = subscribers (rooms w) eventId) by set_solver.
  split.
  - intros r. destruct (decide (r = eventId)) as [->|Hne].
    + by rewrite subscribers_socketLeave, subscribers_socketJoin.
    + unfold subscribers at 1. rewrite lookup_socketLeave_ne by done.
      by apply subscribers_socketJoin_ne.
  - rewrite <- app_assoc, drop_app_length.
    rewrite !roomSize_subscribers, subscribers_socketLeave, !subscribers_socketJoin.
    rewrite Hback, size_union by set_solver. by rewrite size_singleton.
Qed.

(** X19.  The count a [GET /:id] reports is the size of the room named by
    the identifier of the request: after a socket sent [joinEvent] with
    that identifier, the response carries the number of sockets of the
    room, the new one included, and that number is at least 1. *)
Theorem viewers_after_joinEvent (w : World) (socketId id : string) (now : Z)
    (oid : ObjectId) (e : Event) :
  castObjectId M id = Some oid ->
  events w !! oid = Some e ->
  snd (get_id M (on_joinEvent w socketId id now) id)
    = json 200 (JViewed (populate M (oid, e))
                        (size ({[socketId]} ∪ subscribers (rooms w) id)))
  /\ 1 <= size ({[socketId]} ∪ subscribers (rooms w) id).
Proof.
  intros Hc He. split.
  - rewrite (get_id_found M _ id oid e Hc); [|done]. cbn.
    by rewrite roomSize_socketJoin.
  - assert (size ({[socketId]} ∪ subscribers (rooms w) id) ≠ 0); [|lia].
    intros Hz. apply size_empty_inv in Hz. set_solver.
Qed.

(** X20.  The room of a [GET /:id] is named by the identifier as the
    request writes it, not by the ObjectId it casts to: a socket that
    joined under one spelling of an identifier is not counted by a request
    that uses another spelling of the same ObjectId, although both
    requests are answered with the same event. *)
Theorem viewers_counted_per_spelling (w : World) (socketId id id' : string) (now : Z)
    (oid : ObjectId) (e : Event) :
  castObjectId M id = Some oid ->
  castObjectId M id' = Some oid ->
  id ≠ id' ->
  events w !! oid = Some e ->
  snd (get_id M (on_joinEvent w socketId id now) id')
    = json 200 (JViewed (populate M (oid, e)) (size (subscribers (rooms w) id')))
  /\ snd (get_id M (on_joinEvent w socketId id now) id)
     = json 200 (JViewed (populate M (oid, e))
                         (size ({[socketId]} ∪ subscribers (rooms w) id))).
Proof.
  intros Hc Hc' Hne He. split.
  - rewrite (get_id_found M _ id' oid e Hc'); [|done]. cbn.
    rewrite roomSize_subscribers. by rewrite subscribers_socketJoin_ne.
  - rewrite (get_id_found M _ id oid e Hc); [|done]. cbn.
    by rewrite roomSize_socketJoin.
Qed.

End Presence.

(** ** The further properties on the sample data *)

Lemma partyWorld_events (c : Z) :
  events (partyWorld c) = <[party := partyEvent c]> ∅.
Proof. vm_compute. reflexivity. Qed.

(** Carol's join to a full party changes nothing. *)
Lemma failure_leaves_world_witness :
  fst (handle sampleMongoose (partyWorld 1) (POST_join carol party)) = partyWorld 1.
Proof.
  apply (failure_leaves_world sampleMongoose (partyWorld 1) (POST_join carol party)).
  vm_compute. reflexivity.
Defined.


Lemma absent_event_not_found_witness :
  get_id sampleMongoose emptyWorld party
    = (emptyWorld, json 404 (JMessage "Event not found"))
  /\ post_join sampleMongoose emptyWorld bob party
     = (emptyWorld, json 404 (JMessage "Event not found"))
  /\ post_leave sampleMongoose emptyWorld bob party
     = (emptyWorld, json 404 (JMessage "Event not found"))
  /\ put_id sampleMongoose emptyWorld bob party handOver
     = (emptyWorld, json 404 (JMessage "Event not found or unauthorized"))
  /\ delete_id sampleMongoose emptyWorld bob party
     = (emptyWorld, json 404 (JMessage "Event not found or unauthorized")).
Proof.
  apply (absent_event_not_found sampleMongoose emptyWorld bob party party handOver).
  - vm_compute. reflexivity.
  - reflexivity.
Defined.

Lemma non_creator_sees_absence_witness :
  snd (put_id sampleMongoose (partyWorld 2) bob party handOver)
    = snd (put_id sampleMongoose
             (setEvents (partyWorld 2) (delete party (events (partyWorld 2))))
             bob party handOver)
  /\ snd (delete_id sampleMongoose (partyWorld 2) bob party)
     = snd (delete_id sampleMongoose
              (setEvents (partyWorld 2) (delete party (events (partyWorld 2))))
              bob party)
  /\ fst (put_id sampleMongoose (partyWorld 2) bob party handOver) = partyWorld 2
  /\ fst (delete_id sampleMongoose (partyWorld 2) bob party) = partyWorld 2.
Proof.
  apply (non_creator_sees_absence sampleMongoose (partyWorld 2) bob party party
           (partyEvent 2) handOver).
  - vm_compute. reflexivity.
  - apply party_stored.
  - cbn. discriminate.
Defined.

Lemma update_only_by_creator_witness :
  exists oid e,
    castObjectId sampleMongoose party = Some oid
    /\ events (partyWorld 2) !! oid = Some e
    /\ creator e = alice.
Proof.
  apply (update_only_by_creator sampleMongoose (partyWorld 2) alice party
           (capacityPatch 5)).
  vm_compute. reflexivity.
Defined.

Lemma delete_then_get_witness :
  delete_id sampleMongoose (partyWorld 2) alice party
    = (emit (setEvents (partyWorld 2) (delete party (events (partyWorld 2))))
            None "eventDeleted" (JId party),
       json 200 (JMessage "Event deleted successfully"))
  /\ events (fst (delete_id sampleMongoose (partyWorld 2) alice party)) !! party = None
  /\ snd (get_id sampleMongoose
            (fst (delete_id sampleMongoose (partyWorld 2) alice party)) party)
     = json 404 (JMessage "Event not found").
Proof.
  apply (delete_then_get sampleMongoose (partyWorld 2) alice party party (partyEvent 2)).
  - vm_compute. reflexivity.
  - apply party_stored.
  - reflexivity.
Defined.


Lemma party_distinct (c : Z) :
  map_Forall (fun _ e => NoDup (attendees e)) (events (partyWorld c)).
Proof.
  rewrite partyWorld_events. apply map_Forall_insert_2; [|apply map_Forall_empty].
  cbn. apply NoDup_singleton.
Qed.

Lemma attendees_stay_distinct_witness :
  map_Forall (fun _ e => NoDup (attendees e))
    (events (fst (handle sampleMongoose (partyWorld 2) (POST_join bob party)))).
Proof.
  apply (attendees_stay_distinct sampleMongoose (partyWorld 2) (POST_join bob party)).
  - reflexivity.
  - apply party_distinct.
Defined.



(** Alice lowers the capacity of her party to 0; bob's join is refused. *)
Lemma shrink_then_join_full_witness :
  status (snd (put_id sampleMongoose (partyWorld 2) alice party (capacityPatch 0))) = 200
  /\ events (fst (put_id sampleMongoose (partyWorld 2) alice party (capacityPatch 0)))
       !! party
     = Some (setCapacity (partyEvent 2) 0)
  /\ snd (post_join sampleMongoose
            (fst (put_id sampleMongoose (partyWorld 2) alice party (capacityPatch 0)))
            bob party)
     = json 400 (JMessage "Event is full").
Proof.
  apply (shrink_then_join_full sampleMongoose (partyWorld 2) alice bob party party
           (partyEvent 2) 0).
  - vm_compute. reflexivity.
  - apply party_stored.
  - reflexivity.
  - vm_compute. reflexivity.
  - cbn. lia.
  - apply bob_not_in_party.
Defined.

Lemma join_then_leave_witness :
  status (snd (post_join sampleMongoose (partyWorld 2) bob party)) = 200
  /\ status (snd (post_leave sampleMongoose
                    (fst (post_join sampleMongoose (partyWorld 2) bob party)) bob party))
     = 200
  /\ events (fst (post_leave sampleMongoose
                    (fst (post_join sampleMongoose (partyWorld 2) bob party)) bob party))
     = events (partyWorld 2).
Proof.
  apply (join_then_leave sampleMongoose (partyWorld 2) bob party party (partyEvent 2)).
  - vm_compute. reflexivity.
  - apply party_stored.
  - apply bob_not_in_party.
  - vm_compute. reflexivity.
  - vm_compute. reflexivity.
  - vm_compute. reflexivity.
Defined.

Lemma joinEvent_then_leaveEvent_witness :
  (forall r, subscribers
               (rooms (on_leaveEvent (on_joinEvent emptyWorld "s1" party 10) "s1" party 11))
               r
             = subscribers (rooms emptyWorld) r)
  /\ payload <$> drop (length (outbox emptyWorld))
                   (outbox (on_leaveEvent (on_joinEvent emptyWorld "s1" party 10)
                                          "s1" party 11))
     = [ JViewerUpdate party (S (size (subscribers (rooms emptyWorld) party))) 10;
         JViewerUpdate party (size (subscribers (rooms emptyWorld) party)) 11 ].
Proof.
  apply (joinEvent_then_leaveEvent emptyWorld "s1" party 10 11).
  unfold subscribers. cbn. rewrite lookup_empty. cbn. apply not_elem_of_empty.
Defined.

Lemma viewers_after_joinEvent_witness :
  snd (get_id sampleMongoose (on_joinEvent (partyWorld 2) "s1" party 10) party)
    = json 200 (JViewed (populate sampleMongoose (party, partyEvent 2))
                        (size ({[ "s1" ]} ∪ subscribers (rooms (partyWorld 2)) party)))
  /\ 1 <= size ({[ "s1" ]} ∪ subscribers (rooms (partyWorld 2)) party).
Proof.
  apply (viewers_after_joinEvent sampleMongoose (partyWorld 2) "s1" party 10 party
           (partyEvent 2)).
  - vm_compute. reflexivity.
  - apply party_stored.
Defined.

(** A socket joins the room written in capitals; a request written in lower
    case finds the party and counts the sockets of another room. *)
Lemma viewers_counted_per_spelling_witness :
  snd (get_id sampleMongoose
         (on_joinEvent (partyWorld 2) "s1" "0123456789ABCDEF01234567" 10) party)
    = json 200 (JViewed (populate sampleMongoose (party, partyEvent 2))
                        (size (subscribers (rooms (partyWorld 2)) party)))
  /\ snd (get_id sampleMongoose
            (on_joinEvent (partyWorld 2) "s1" "0123456789ABCDEF01234567" 10)
            "0123456789ABCDEF01234567")
     = json 200 (JViewed (populate sampleMongoose (party, partyEvent 2))
                         (size ({[ "s1" ]}
                                ∪ subscribers (rooms (partyWorld 2))
                                    "0123456789ABCDEF01234567"))).
Proof.
  apply (viewers_counted_per_spelling sampleMongoose (partyWorld 2) "s1"
           "0123456789ABCDEF01234567" party 10 party (partyEvent 2)).
  - vm_compute. reflexivity.
  - vm_compute. reflexivity.
  - discriminate.
  - apply party_stored.
Defined.

(** Alice hands the party over to bob. *)
Lemma hand_over_moves_rights_witness :
  status (snd (put_id sampleMongoose (partyWorld 2) alice party (creatorPatch bob))) = 200
  /\ events (fst (put_id sampleMongoose (partyWorld 2) alice party (creatorPatch bob)))
       !! party
     = Some (setCreator (partyEvent 2) bob)
  /\ snd (put_id sampleMongoose
            (fst (put_id sampleMongoose (partyWorld 2) alice party (creatorPatch bob)))
            alice party (capacityPatch 5))
     = json 404 (JMessage "Event not found or unauthorized")
  /\ snd (delete_id sampleMongoose
            (fst (put_id sampleMongoose (partyWorld 2) alice party (creatorPatch bob)))
            alice party)
     = json 404 (JMessage "Event not found or unauthorized")
  /\ snd (delete_id sampleMongoose
            (fst (put_id sampleMongoose (partyWorld 2) alice party (creatorPatch bob)))
            bob party)
     = json 200 (JMessage "Event deleted successfully").
Proof.
  apply (hand_over_moves_rights sampleMongoose (partyWorld 2) alice party party
           (partyEvent 2) bob bob (capacityPatch 5)).
  - vm_compute. reflexivity.
  - apply party_stored.
  - reflexivity.
  - vm_compute. reflexivity.
  - discriminate.
  - vm_compute. reflexivity.
Defined.
